(** * RPC over HTTP (ncacn_http): the gateway authentication handshake

    Shallow embedding of libfreerdp/core/gateway/ncacn_http.c.

    C [BOOL] results are modelled as [Z] (the C [int] they are), so that
    the [return -1] statements of the source keep their value; [FALSE] is
    [0] and [TRUE] is [1].  Nullable pointers are [option]s.  The
    collaborators the file calls (the credssp_auth package, the HTTP
    context, base64, the channel transport and the gateway authentication
    of utils.c) are opaque operations bundled in type classes; their
    results are whatever the instance returns.  Allocation failure of the
    internal buffers (http_request_new, strdup, base64 output) is not
    modelled.  Effects on buffers and on the session (frees, hand-over of a
    token to the security package, calls that set the package up, the last
    error) are recorded in a trace of events, in program order. *)

From Stdlib Require Import ZArith List String Bool Lia.
Import ListNotations.
Open Scope Z_scope.

(** ** C constants *)

Definition FALSE : Z := 0.
Definition TRUE : Z := 1.
Definition UINT32_MAX : Z := 4294967295.

(** [NTLM_SSP_NAME] *)
Definition AUTH_PKG : string := "NTLM".

(** SSPI flag [ISC_REQ_CONFIDENTIALITY]. *)
Definition ISC_REQ_CONFIDENTIALITY : Z := 16.

(** The [auth_status] enum of utils.h. *)
Inductive auth_status :=
| AUTH_SUCCESS
| AUTH_SKIP
| AUTH_NO_CREDENTIALS
| AUTH_CANCELLED
| AUTH_FAILED.

(** The FreeRDP error codes this file sets. *)
Inductive freerdp_error :=
| FREERDP_ERROR_CONNECT_CANCELLED.

(** ** Data *)

(** [SecBuffer]: a nullable data pointer and a 32-bit length. *)
Record SecBuffer := {
  pvBuffer : option (list Byte.byte);
  cbBuffer : Z
}.

(** [SEC_WINNT_AUTH_IDENTITY] *)
Record SEC_WINNT_AUTH_IDENTITY := {
  User : option string;
  Domain : option string;
  Password : option string
}.

(** The gateway fields of [rdpSettings] read by this file. *)
Record rdpSettings := {
  GatewayUsername : option string;
  GatewayDomain : option string;
  GatewayPassword : option string;
  GatewayHostname : option string
}.

(** [HttpRequest] as it is filled in by the http.c setters. *)
Record HttpRequest := {
  Method : option string;
  ContentLength : Z;
  URI : option string;
  AuthScheme : option string;
  AuthParam : option string
}.

Definition http_request_new : HttpRequest :=
  {| Method := None; ContentLength := 0; URI := None;
     AuthScheme := None; AuthParam := None |}.

(** [RpcChannel]: the fields of the channel used here. *)
Record RpcChannel (Auth Http Tls : Type) := {
  auth : option Auth;
  http : option Http;
  tls : option Tls
}.
Arguments auth {Auth Http Tls}.
Arguments http {Auth Http Tls}.
Arguments tls {Auth Http Tls}.
Arguments Build_RpcChannel {Auth Http Tls}.

(** [rdpContext]: the fields used here. *)
Record rdpContext (Instance : Type) := {
  settings : option rdpSettings;
  instance : option Instance
}.
Arguments settings {Instance}.
Arguments instance {Instance}.
Arguments Build_rdpContext {Instance}.

(** ** Collaborators *)

(** The credssp_auth interface (credssp_auth.h).  [credssp_auth_authenticate]
    advances the package by one step and returns its [int] result with the
    new state. *)
Class CredsspAuthOps (Auth Tls : Type) := {
  credssp_auth_authenticate : Auth -> Z * Auth;
  credssp_auth_have_output_token : Auth -> bool;
  credssp_auth_get_output_buffer : Auth -> SecBuffer;
  credssp_auth_pkg_name : Auth -> string;
  credssp_auth_take_input_buffer : Auth -> SecBuffer -> Auth;
  credssp_auth_is_complete : Auth -> bool;
  credssp_auth_init : Auth -> string -> Tls -> bool * Auth;
  credssp_auth_setup_client :
    Auth -> string -> option string -> option SEC_WINNT_AUTH_IDENTITY -> bool * Auth;
  credssp_auth_set_flags : Auth -> Z -> Auth
}.

(** The HTTP context, the response parser and the serialiser (http.h). *)
Class HttpOps (Http HttpResponse : Type) := {
  http_context_get_uri : Http -> option string;
  http_request_write : Http -> HttpRequest -> option (list Byte.byte);
  http_response_get_auth_token : HttpResponse -> string -> option string
}.

(** crypto_base64_encode / crypto_base64_decode: decoding yields a nullable
    data pointer and a [size_t] length. *)
Class Base64Ops := {
  crypto_base64_encode : option (list Byte.byte) -> Z -> string;
  crypto_base64_decode : string -> option (list Byte.byte) * Z
}.

(** The rest of the session: the channel transport (rpc.c) and the gateway
    authentication and identity helpers (utils.c).  The gateway
    authentication reaches the session's settings through the instance and
    may rewrite them (the gateway credentials entered at the prompt): it
    returns its decision with the settings as it leaves them. *)
Class SessionOps (Auth Http Tls Instance : Type) := {
  rpc_channel_write : RpcChannel Auth Http Tls -> list Byte.byte -> Z;
  utils_authenticate_gateway : Instance -> rdpSettings -> auth_status * rdpSettings;
  identity_set_from_settings : rdpSettings -> option SEC_WINNT_AUTH_IDENTITY
}.

(** Observable effects, in program order. *)
Inductive Event :=
| EvFree (p : option (list Byte.byte))          (* free / sspi_SecBufferFree *)
| EvTakeInput (b : SecBuffer)                   (* credssp_auth_take_input_buffer *)
| EvSetLastError (e : freerdp_error)            (* freerdp_set_last_error_log *)
| EvAuthInit (pkg : string)                     (* credssp_auth_init *)
| EvSetupClient (identityArg : option SEC_WINNT_AUTH_IDENTITY) (* credssp_auth_setup_client *)
| EvFreeIdentity                                (* sspi_FreeAuthIdentity *)
| EvSetFlags (flags : Z).                       (* credssp_auth_set_flags *)

(** Modelled from the spec: the request setters of http.c (not under
    src/).  The HttpFramer "builds an HTTP request with method, URI,
    declared content length, and an optional authentication header (scheme
    + encoded token)"; each setter stores its argument, and the setters of
    string fields fail on a null string. *)
Definition http_request_set_method (r : HttpRequest) (m : option string)
  : option HttpRequest :=
  match m with
  | Some _ => Some {| Method := m; ContentLength := ContentLength r; URI := URI r;
                      AuthScheme := AuthScheme r; AuthParam := AuthParam r |}
  | None => None
  end.

Definition http_request_set_content_length (r : HttpRequest) (n : Z) : option HttpRequest :=
  Some {| Method := Method r; ContentLength := n; URI := URI r;
          AuthScheme := AuthScheme r; AuthParam := AuthParam r |}.

Definition http_request_set_uri (r : HttpRequest) (u : option string) : option HttpRequest :=
  match u with
  | Some _ => Some {| Method := Method r; ContentLength := ContentLength r; URI := u;
                      AuthScheme := AuthScheme r; AuthParam := AuthParam r |}
  | None => None
  end.

Definition http_request_set_auth_scheme (r : HttpRequest) (s : option string)
  : option HttpRequest :=
  match s with
  | Some _ => Some {| Method := Method r; ContentLength := ContentLength r; URI := URI r;
                      AuthScheme := s; AuthParam := AuthParam r |}
  | None => None
  end.

Definition http_request_set_auth_param (r : HttpRequest) (p : option string)
  : option HttpRequest :=
  match p with
  | Some _ => Some {| Method := Method r; ContentLength := ContentLength r; URI := URI r;
                      AuthScheme := AuthScheme r; AuthParam := p |}
  | None => None
  end.

(** Modelled from the spec: the meaning of the [int] returned by
    credssp_auth_authenticate (credssp_auth.c, not under src/).  The step
    result "is one of NeedMoreInput, Complete, Failed"; the package returns
    a negative value on failure, 0 while more input is needed and a
    positive value once the context is complete. *)
Inductive StepResult := NeedMoreInput | Complete | Failed.

Definition step_result (rc : Z) : StepResult :=
  if rc <? 0 then Failed else if rc =? 0 then NeedMoreInput else Complete.

(** Result of a send: the C return value, the channel afterwards, the
    request built this round (the one handed to http_request_write) and the
    bytes handed to the transport. *)
Record SendOut (Chan : Type) := {
  s_ret : Z;
  s_chan : option Chan;
  s_req : option HttpRequest;
  s_written : option (list Byte.byte)
}.
Arguments s_ret {Chan}.
Arguments s_chan {Chan}.
Arguments s_req {Chan}.
Arguments s_written {Chan}.
Arguments Build_SendOut {Chan}.

(** Result of a receive or of init: the C return value, the channel
    afterwards and the trace of effects. *)
Record CallOut (Chan : Type) := {
  c_ret : Z;
  c_chan : option Chan;
  c_trace : list Event
}.
Arguments c_ret {Chan}.
Arguments c_chan {Chan}.
Arguments c_trace {Chan}.
Arguments Build_CallOut {Chan}.

Section Ncacn_http.

Context {Auth Http Tls Instance HttpResponse : Type}.
Context `{CA : CredsspAuthOps Auth Tls}.
Context `{HO : HttpOps Http HttpResponse}.
Context `{B64 : Base64Ops}.
Context `{SO : SessionOps Auth Http Tls Instance}.

Local Abbreviation Channel := (RpcChannel Auth Http Tls).

Definition set_auth (ch : Channel) (a : Auth) : Channel :=
  {| auth := Some a; http := http ch; tls := tls ch |}.

(** [rpc_auth_http_request]: returns the request object as built (the
    local [request] at [http_request_write], [None] when a setter failed)
    and the serialised stream [s]. *)
Definition rpc_auth_http_request (h : option Http) (method : option string)
    (contentLength : Z) (authToken : option SecBuffer) (auth_scheme : string)
  : option HttpRequest * option (list Byte.byte) :=
  match h, method with
  | Some h, Some _ =>
      let request := http_request_new in
      let base64AuthToken :=
        match authToken with
        | Some t => Some (crypto_base64_encode (pvBuffer t) (cbBuffer t))
        | None => None
        end in
      let uri := http_context_get_uri h in
      match http_request_set_method request method with
      | None => (None, None)
      | Some request =>
      match http_request_set_content_length request contentLength with
      | None => (None, None)
      | Some request =>
      match http_request_set_uri request uri with
      | None => (None, None)
      | Some request =>
      let built :=
        match base64AuthToken with
        | Some _ =>
            match http_request_set_auth_scheme request (Some auth_scheme) with
            | None => None
            | Some request => http_request_set_auth_param request base64AuthToken
            end
        | None => Some request
        end in
      match built with
      | None => (None, None)
      | Some request => (Some request, http_request_write h request)
      end
      end end end
  | _, _ => (None, None)
  end.

(** [rpc_ncacn_http_send_in_channel_request] *)
Definition rpc_ncacn_http_send_in_channel_request (inChannel : option Channel)
  : SendOut Channel :=
  match inChannel with
  | None => Build_SendOut FALSE inChannel None None
  | Some ch =>
      match auth ch, http ch with
      | Some a, Some h =>
          let '(rc, a) := credssp_auth_authenticate a in
          let ch := set_auth ch a in
          if rc <? 0 then Build_SendOut FALSE (Some ch) None None
          else
            let contentLength := if rc =? 0 then 0 else 1073741824 (* 0x40000000 *) in
            let buffer :=
              if credssp_auth_have_output_token a
              then Some (credssp_auth_get_output_buffer a) else None in
            let '(req, s) :=
              rpc_auth_http_request (Some h) (Some "RPC_IN_DATA"%string) contentLength
                buffer (credssp_auth_pkg_name a) in
            match s with
            | None => Build_SendOut (-1) (Some ch) req None
            | Some s =>
                let status := rpc_channel_write ch s in
                Build_SendOut (if status >? 0 then 1 else -1) (Some ch) req (Some s)
            end
      | _, _ => Build_SendOut FALSE inChannel None None
      end
  end.

(** [rpc_ncacn_http_send_out_channel_request] *)
Definition rpc_ncacn_http_send_out_channel_request (outChannel : option Channel)
    (replacement : bool) : SendOut Channel :=
  match outChannel with
  | None => Build_SendOut FALSE outChannel None None
  | Some ch =>
      match auth ch, http ch with
      | Some a, Some h =>
          let '(rc, a) := credssp_auth_authenticate a in
          let ch := set_auth ch a in
          if rc <? 0 then Build_SendOut FALSE (Some ch) None None
          else
            let contentLength :=
              if negb replacement then (if rc =? 0 then 0 else 76)
              else (if rc =? 0 then 0 else 120) in
            let buffer :=
              if credssp_auth_have_output_token a
              then Some (credssp_auth_get_output_buffer a) else None in
            let '(req, s) :=
              rpc_auth_http_request (Some h) (Some "RPC_OUT_DATA"%string) contentLength
                buffer (credssp_auth_pkg_name a) in
            match s with
            | None => Build_SendOut (-1) (Some ch) req None
            | Some s =>
                let status := if rpc_channel_write ch s <? 0 then FALSE else TRUE in
                Build_SendOut status (Some ch) req (Some s)
            end
      | _, _ => Build_SendOut FALSE outChannel None None
      end
  end.

(** [rpc_ncacn_http_recv_in_channel_response] *)
Definition rpc_ncacn_http_recv_in_channel_response (inChannel : option Channel)
    (response : option HttpResponse) : CallOut Channel :=
  match inChannel, response with
  | Some ch, Some resp =>
      match auth ch with
      | None => Build_CallOut FALSE inChannel []
      | Some a =>
          let token64 := http_response_get_auth_token resp (credssp_auth_pkg_name a) in
          let '(authTokenData, authTokenLength) :=
            match token64 with
            | Some t => crypto_base64_decode t
            | None => (None, 0)
            end in
          if authTokenLength >? UINT32_MAX
          then Build_CallOut FALSE inChannel [EvFree authTokenData]
          else
            let buffer := {| pvBuffer := authTokenData;
                             cbBuffer := authTokenLength mod 2 ^ 32 |} in
            if match authTokenData with Some _ => negb (authTokenLength =? 0) | None => false end
            then Build_CallOut TRUE (Some (set_auth ch (credssp_auth_take_input_buffer a buffer)))
                   [EvTakeInput buffer]
            else Build_CallOut TRUE inChannel [EvFree (pvBuffer buffer)]
      end
  | _, _ => Build_CallOut FALSE inChannel []
  end.

(** [rpc_ncacn_http_recv_out_channel_response] *)
Definition rpc_ncacn_http_recv_out_channel_response (outChannel : option Channel)
    (response : option HttpResponse) : CallOut Channel :=
  match outChannel, response with
  | Some ch, Some resp =>
      match auth ch with
      | None => Build_CallOut FALSE outChannel []
      | Some a =>
          let token64 := http_response_get_auth_token resp (credssp_auth_pkg_name a) in
          let '(authTokenData, authTokenLength) :=
            match token64 with
            | Some t => crypto_base64_decode t
            | None => (None, 0)
            end in
          if authTokenLength >? UINT32_MAX
          then Build_CallOut FALSE outChannel [EvFree authTokenData]
          else
            let buffer := {| pvBuffer := authTokenData;
                             cbBuffer := authTokenLength mod 2 ^ 32 |} in
            if match authTokenData with Some _ => negb (authTokenLength =? 0) | None => false end
            then Build_CallOut TRUE (Some (set_auth ch (credssp_auth_take_input_buffer a buffer)))
                   [EvTakeInput buffer]
            else Build_CallOut TRUE outChannel [EvFree (pvBuffer buffer)]
      end
  | _, _ => Build_CallOut FALSE outChannel []
  end.

(** [rpc_ncacn_http_auth_init]: returns the C result, the channel
    afterwards and the trace (the last error set on the session, and the
    calls into the security package).  [settings] is read again after
    utils_authenticate_gateway, which may have rewritten it: the identity,
    the username test and the hostname come from the settings as that call
    leaves them.  Init itself writes nothing into the settings. *)
Definition rpc_ncacn_http_auth_init (context : option (rdpContext Instance))
    (channel : option Channel) : CallOut Channel :=
  match context, channel with
  | Some c, Some ch =>
      match tls ch, auth ch, instance c, settings c with
      | Some t, Some a, Some inst, Some st =>
          let '(rc, st) := utils_authenticate_gateway inst st in
          let continue_init (tr : list Event) : CallOut Channel :=
            let '(ok, a) := credssp_auth_init a AUTH_PKG t in
            let tr := tr ++ [EvAuthInit AUTH_PKG] in
            if negb ok then Build_CallOut FALSE (Some (set_auth ch a)) tr
            else
              match identity_set_from_settings st with
              | None => Build_CallOut FALSE (Some (set_auth ch a)) tr
              | Some ident =>
                  let identityArg :=
                    match GatewayUsername st with Some _ => Some ident | None => None end in
                  let '(res, a) :=
                    credssp_auth_setup_client a "HTTP" (GatewayHostname st) identityArg in
                  let a := credssp_auth_set_flags a ISC_REQ_CONFIDENTIALITY in
                  Build_CallOut (if res then TRUE else FALSE) (Some (set_auth ch a))
                    (tr ++ [EvSetupClient identityArg; EvFreeIdentity;
                            EvSetFlags ISC_REQ_CONFIDENTIALITY])
              end in
          match rc with
          | AUTH_SUCCESS | AUTH_SKIP => continue_init []
          | AUTH_CANCELLED =>
              Build_CallOut FALSE channel [EvSetLastError FREERDP_ERROR_CONNECT_CANCELLED]
          | AUTH_NO_CREDENTIALS => continue_init []   (* WLog_INFO only *)
          | AUTH_FAILED => Build_CallOut FALSE channel []
          end
      | _, _, _, _ => Build_CallOut FALSE channel []
      end
  | _, _ => Build_CallOut FALSE channel []
  end.

(** [rpc_ncacn_http_auth_uninit]: the package is freed and the reference
    cleared. *)
Definition rpc_ncacn_http_auth_uninit (channel : option Channel) : option Channel :=
  match channel with
  | None => None
  | Some ch => Some {| auth := None; http := http ch; tls := tls ch |}
  end.

(** [rpc_ncacn_http_is_final_request]: [None] stands for the failed
    [WINPR_ASSERT(channel)], which does not return to the caller.  For a
    null package credssp_auth_is_complete returns FALSE (it tests
    [auth && auth->state == AUTH_STATE_FINAL]); otherwise it reports the
    package's completion. *)
Definition rpc_ncacn_http_is_final_request (channel : option Channel) : option bool :=
  match channel with
  | None => None
  | Some ch =>
      match auth ch with
      | None => Some false
      | Some a => Some (credssp_auth_is_complete a)
      end
  end.

End Ncacn_http.

(** ** Properties *)

Section Properties.

Context {Auth Http Tls Instance HttpResponse : Type}.
Context `{CA : CredsspAuthOps Auth Tls}.
Context `{HO : HttpOps Http HttpResponse}.
Context `{B64 : Base64Ops}.
Context `{SO : SessionOps Auth Http Tls Instance}.

Local Abbreviation Channel := (RpcChannel Auth Http Tls).

(** The request built by [rpc_auth_http_request] declares the content
    length it was given and carries the scheme and the encoded token
    exactly when a token was given. *)
Lemma rpc_auth_http_request_built (h : Http) (m : string) (cl : Z)
    (tok : option SecBuffer) (scheme : string) (req : HttpRequest)
    (s : option (list Byte.byte)) :
  rpc_auth_http_request (Some h) (Some m) cl tok scheme = (Some req, s) ->
  ContentLength req = cl /\ Method req = Some m /\
  match tok with
  | Some t => AuthScheme req = Some scheme /\
              AuthParam req = Some (crypto_base64_encode (pvBuffer t) (cbBuffer t))
  | None => AuthScheme req = None /\ AuthParam req = None
  end.
Proof.
  unfold rpc_auth_http_request; simpl.
  destruct (http_context_get_uri h) as [u|]; simpl; [|discriminate].
  destruct tok as [t|]; simpl; intros E; inversion E; subst; simpl; auto.
Qed.

(** The round of the inbound send, once the security step has run. *)
Lemma send_in_round (ch : Channel) (a : Auth) (h : Http) (rc : Z) (a' : Auth) :
  auth ch = Some a -> http ch = Some h ->
  credssp_auth_authenticate a = (rc, a') ->
  s_req (rpc_ncacn_http_send_in_channel_request (Some ch)) =
  if rc <? 0 then None
  else fst (rpc_auth_http_request (Some h) (Some "RPC_IN_DATA"%string)
              (if rc =? 0 then 0 else 1073741824)
              (if credssp_auth_have_output_token a'
               then Some (credssp_auth_get_output_buffer a') else None)
              (credssp_auth_pkg_name a')).
Proof.
  intros Ha Hh Hs. unfold rpc_ncacn_http_send_in_channel_request.
  rewrite Ha, Hh, Hs.
  destruct (rc <? 0); [reflexivity|].
  destruct (rpc_auth_http_request _ _ _ _ _) as [req s]; simpl.
  destruct s; reflexivity.
Qed.

(** The round of the outbound send, once the security step has run. *)
Lemma send_out_round (ch : Channel) (replacement : bool) (a : Auth) (h : Http)
    (rc : Z) (a' : Auth) :
  auth ch = Some a -> http ch = Some h ->
  credssp_auth_authenticate a = (rc, a') ->
  s_req (rpc_ncacn_http_send_out_channel_request (Some ch) replacement) =
  if rc <? 0 then None
  else fst (rpc_auth_http_request (Some h) (Some "RPC_OUT_DATA"%string)
              (if negb replacement then (if rc =? 0 then 0 else 76)
               else (if rc =? 0 then 0 else 120))
              (if credssp_auth_have_output_token a'
               then Some (credssp_auth_get_output_buffer a') else None)
              (credssp_auth_pkg_name a')).
Proof.
  intros Ha Hh Hs. unfold rpc_ncacn_http_send_out_channel_request.
  rewrite Ha, Hh, Hs.
  destruct (rc <? 0); [reflexivity|].
  destruct (rpc_auth_http_request _ _ _ _ _) as [req s]; simpl.
  destruct s; reflexivity.
Qed.

Lemma step_result_need (rc : Z) : step_result rc = NeedMoreInput -> rc = 0.
Proof.
  unfold step_result. destruct (Z.ltb_spec rc 0); [discriminate|].
  destruct (Z.eqb_spec rc 0); [auto|discriminate].
Qed.

Lemma step_result_complete (rc : Z) : step_result rc = Complete -> 0 < rc.
Proof.
  unfold step_result. destruct (Z.ltb_spec rc 0); [discriminate|].
  destruct (Z.eqb_spec rc 0); [discriminate|lia].
Qed.

(** C1: in every inbound round whose security step succeeds, the request
    built declares content length 0 when the step result is NeedMoreInput
    and 0x40000000 when it is Complete. *)
Theorem send_in_content_length (ch : Channel) (a : Auth) (h : Http) (rc : Z)
    (a' : Auth) (req : HttpRequest) :
  auth ch = Some a -> http ch = Some h ->
  credssp_auth_authenticate a = (rc, a') ->
  s_req (rpc_ncacn_http_send_in_channel_request (Some ch)) = Some req ->
  (step_result rc = NeedMoreInput -> ContentLength req = 0) /\
  (step_result rc = Complete -> ContentLength req = 1073741824).
Proof.
  intros Ha Hh Hs Hr. rewrite (send_in_round ch a h rc a' Ha Hh Hs) in Hr.
  destruct (Z.ltb_spec rc 0) as [Hlt|Hge]; [discriminate|].
  destruct (rpc_auth_http_request _ _ _ _ _) as [r s] eqn:E; simpl in Hr; subst r.
  destruct (rpc_auth_http_request_built _ _ _ _ _ _ _ E) as [Hcl _].
  rewrite Hcl. split; intros Hst.
  - rewrite (step_result_need rc Hst). reflexivity.
  - pose proof (step_result_complete rc Hst).
    destruct (Z.eqb_spec rc 0); [lia|reflexivity].
Qed.

(** C2: in every outbound round whose security step succeeds, the request
    built declares content length 0 when the step result is NeedMoreInput;
    when it is Complete, 76 for a fresh channel and 120 for a replacement
    channel. *)
Theorem send_out_content_length (ch : Channel) (replacement : bool) (a : Auth)
    (h : Http) (rc : Z) (a' : Auth) (req : HttpRequest) :
  auth ch = Some a -> http ch = Some h ->
  credssp_auth_authenticate a = (rc, a') ->
  s_req (rpc_ncacn_http_send_out_channel_request (Some ch) replacement) = Some req ->
  (step_result rc = NeedMoreInput -> ContentLength req = 0) /\
  (step_result rc = Complete ->
   ContentLength req = if replacement then 120 else 76).
Proof.
  intros Ha Hh Hs Hr. rewrite (send_out_round ch replacement a h rc a' Ha Hh Hs) in Hr.
  destruct (Z.ltb_spec rc 0) as [Hlt|Hge]; [discriminate|].
  destruct (rpc_auth_http_request _ _ _ _ _) as [r s] eqn:E; simpl in Hr; subst r.
  destruct (rpc_auth_http_request_built _ _ _ _ _ _ _ E) as [Hcl _].
  rewrite Hcl. split; intros Hst.
  - rewrite (step_result_need rc Hst). destruct replacement; reflexivity.
  - pose proof (step_result_complete rc Hst).
    destruct (Z.eqb_spec rc 0); [lia|]. destruct replacement; reflexivity.
Qed.

(** C3: on either channel, the request built in a round carries an
    authentication header (the package's scheme and the base64 encoding of
    the pending output token) exactly when the package reports an output
    token after its step, and no header otherwise. *)
Theorem send_auth_header_iff_token (ch : Channel) (replacement : bool) (a : Auth)
    (h : Http) (rc : Z) (a' : Auth) :
  auth ch = Some a -> http ch = Some h ->
  credssp_auth_authenticate a = (rc, a') ->
  let header_matches (r : option HttpRequest) :=
    forall req, r = Some req ->
    if credssp_auth_have_output_token a'
    then AuthScheme req = Some (credssp_auth_pkg_name a') /\
         AuthParam req =
           Some (crypto_base64_encode (pvBuffer (credssp_auth_get_output_buffer a'))
                                      (cbBuffer (credssp_auth_get_output_buffer a')))
    else AuthScheme req = None /\ AuthParam req = None in
  header_matches (s_req (rpc_ncacn_http_send_in_channel_request (Some ch))) /\
  header_matches (s_req (rpc_ncacn_http_send_out_channel_request (Some ch) replacement)).
Proof.
  intros Ha Hh Hs header_matches. unfold header_matches.
  rewrite (send_in_round ch a h rc a' Ha Hh Hs),
          (send_out_round ch replacement a h rc a' Ha Hh Hs).
  destruct (rc <? 0); split; intros req Hr; try discriminate.
  - destruct (rpc_auth_http_request _ _ _ _ _) as [r s] eqn:E; simpl in Hr; subst r.
    destruct (rpc_auth_http_request_built _ _ _ _ _ _ _ E) as [_ [_ Hh']].
    destruct (credssp_auth_have_output_token a'); exact Hh'.
  - destruct (rpc_auth_http_request _ _ _ _ _) as [r s] eqn:E; simpl in Hr; subst r.
    destruct (rpc_auth_http_request_built _ _ _ _ _ _ _ E) as [_ [_ Hh']].
    destruct (credssp_auth_have_output_token a'); exact Hh'.
Qed.

Lemma recv_in_unfold (ch : Channel) (a : Auth) (resp : HttpResponse) :
  auth ch = Some a ->
  rpc_ncacn_http_recv_in_channel_response (Some ch) (Some resp) =
  let '(authTokenData, authTokenLength) :=
    match http_response_get_auth_token resp (credssp_auth_pkg_name a) with
    | Some t => crypto_base64_decode t
    | None => (None, 0)
    end in
  if authTokenLength >? UINT32_MAX
  then Build_CallOut FALSE (Some ch) [EvFree authTokenData]
  else
    let buffer := {| pvBuffer := authTokenData;
                     cbBuffer := authTokenLength mod 2 ^ 32 |} in
    if match authTokenData with Some _ => negb (authTokenLength =? 0) | None => false end
    then Build_CallOut TRUE (Some (set_auth ch (credssp_auth_take_input_buffer a buffer)))
           [EvTakeInput buffer]
    else Build_CallOut TRUE (Some ch) [EvFree (pvBuffer buffer)].
Proof.
  intros Ha. unfold rpc_ncacn_http_recv_in_channel_response. rewrite Ha. reflexivity.
Qed.

(** C10: the inbound and outbound receive operations are the same
    function: same result, same channel afterwards, same effects. *)
Theorem recv_in_out_equal (ch : option Channel) (response : option HttpResponse) :
  rpc_ncacn_http_recv_in_channel_response ch response =
  rpc_ncacn_http_recv_out_channel_response ch response.
Proof. reflexivity. Qed.

(** C5: on a valid channel and response, a response without a header for
    the package's scheme, or whose token decodes to an empty token, returns
    success with the channel unchanged and nothing handed to the package
    (only the null or empty decoded buffer is released); a non-empty token
    within the size limit is handed to the package exactly once and the
    call returns success. *)
Theorem recv_in_token_handling (ch : Channel) (a : Auth) (resp : HttpResponse) :
  auth ch = Some a ->
  let out := rpc_ncacn_http_recv_in_channel_response (Some ch) (Some resp) in
  (http_response_get_auth_token resp (credssp_auth_pkg_name a) = None ->
   c_ret out = TRUE /\ c_chan out = Some ch /\ c_trace out = [EvFree None]) /\
  (forall t d,
   http_response_get_auth_token resp (credssp_auth_pkg_name a) = Some t ->
   crypto_base64_decode t = (d, 0) ->
   c_ret out = TRUE /\ c_chan out = Some ch /\ c_trace out = [EvFree d]) /\
  (forall t d n,
   http_response_get_auth_token resp (credssp_auth_pkg_name a) = Some t ->
   crypto_base64_decode t = (Some d, n) -> 0 < n <= UINT32_MAX ->
   let buffer := {| pvBuffer := Some d; cbBuffer := n |} in
   c_ret out = TRUE /\
   c_chan out = Some (set_auth ch (credssp_auth_take_input_buffer a buffer)) /\
   c_trace out = [EvTakeInput buffer]).
Proof.
  intros Ha out. unfold out. rewrite (recv_in_unfold ch a resp Ha).
  split; [|split].
  - intros Hn. rewrite Hn. auto.
  - intros t d Ht Hd. rewrite Ht, Hd. simpl.
    destruct d; simpl; auto.
  - intros t d n Ht Hd Hn. rewrite Ht, Hd.
    destruct (Z.gtb_spec n UINT32_MAX); [lia|].
    destruct (Z.eqb_spec n 0); [lia|].
    assert (Hm : n mod 2 ^ 32 = n) by (apply Z.mod_small; unfold UINT32_MAX in *; lia).
    rewrite Hm. simpl. auto.
Qed.

(** C6: on either channel, a token whose decoded length exceeds
    UINT32_MAX makes the receive fail: the decoded buffer is freed, nothing
    is handed to the package and the channel is unchanged. *)
Theorem recv_token_too_large (ch : Channel) (a : Auth) (resp : HttpResponse)
    (t : string) (d : option (list Byte.byte)) (n : Z) :
  auth ch = Some a ->
  http_response_get_auth_token resp (credssp_auth_pkg_name a) = Some t ->
  crypto_base64_decode t = (d, n) -> n > UINT32_MAX ->
  rpc_ncacn_http_recv_in_channel_response (Some ch) (Some resp) =
    Build_CallOut FALSE (Some ch) [EvFree d] /\
  rpc_ncacn_http_recv_out_channel_response (Some ch) (Some resp) =
    Build_CallOut FALSE (Some ch) [EvFree d].
Proof.
  intros Ha Ht Hd Hn. rewrite <- (recv_in_out_equal (Some ch) (Some resp)).
  rewrite (recv_in_unfold ch a resp Ha), Ht, Hd.
  destruct (Z.gtb_spec n UINT32_MAX); [auto|lia].
Qed.

Lemma auth_init_unfold (c : rdpContext Instance) (ch : Channel) (t : Tls) (a : Auth)
    (inst : Instance) (st : rdpSettings) (d : auth_status) (st' : rdpSettings) :
  tls ch = Some t -> auth ch = Some a -> instance c = Some inst -> settings c = Some st ->
  utils_authenticate_gateway inst st = (d, st') ->
  rpc_ncacn_http_auth_init (Some c) (Some ch) =
  let continue_init (tr : list Event) : CallOut Channel :=
    let '(ok, a) := credssp_auth_init a AUTH_PKG t in
    let tr := tr ++ [EvAuthInit AUTH_PKG] in
    if negb ok then Build_CallOut FALSE (Some (set_auth ch a)) tr
    else
      match identity_set_from_settings st' with
      | None => Build_CallOut FALSE (Some (set_auth ch a)) tr
      | Some ident =>
          let identityArg :=
            match GatewayUsername st' with Some _ => Some ident | None => None end in
          let '(res, a) :=
            credssp_auth_setup_client a "HTTP" (GatewayHostname st') identityArg in
          let a := credssp_auth_set_flags a ISC_REQ_CONFIDENTIALITY in
          Build_CallOut (if res then TRUE else FALSE) (Some (set_auth ch a))
            (tr ++ [EvSetupClient identityArg; EvFreeIdentity;
                    EvSetFlags ISC_REQ_CONFIDENTIALITY])
      end in
  match d with
  | AUTH_SUCCESS | AUTH_SKIP => continue_init []
  | AUTH_CANCELLED =>
      Build_CallOut FALSE (Some ch) [EvSetLastError FREERDP_ERROR_CONNECT_CANCELLED]
  | AUTH_NO_CREDENTIALS => continue_init []
  | AUTH_FAILED => Build_CallOut FALSE (Some ch) []
  end.
Proof.
  intros Ht Ha Hi Hs Hg. unfold rpc_ncacn_http_auth_init. rewrite Ht, Ha, Hi, Hs, Hg.
  reflexivity.
Qed.

(** C7: when the gateway-authentication decision is AUTH_CANCELLED, init
    fails after recording FREERDP_ERROR_CONNECT_CANCELLED, makes no call
    that sets up the security package and leaves the channel unchanged. *)
Theorem auth_init_cancelled (c : rdpContext Instance) (ch : Channel) (t : Tls)
    (a : Auth) (inst : Instance) (st : rdpSettings) :
  tls ch = Some t -> auth ch = Some a -> instance c = Some inst -> settings c = Some st ->
  fst (utils_authenticate_gateway inst st) = AUTH_CANCELLED ->
  rpc_ncacn_http_auth_init (Some c) (Some ch) =
  Build_CallOut FALSE (Some ch) [EvSetLastError FREERDP_ERROR_CONNECT_CANCELLED].
Proof.
  intros Ht Ha Hi Hs Hd.
  destruct (utils_authenticate_gateway inst st) as [d st'] eqn:Hg. simpl in Hd. subst d.
  rewrite (auth_init_unfold c ch t a inst st AUTH_CANCELLED st' Ht Ha Hi Hs Hg).
  reflexivity.
Qed.

(** C8: when the gateway authentication lets init proceed (AUTH_SUCCESS,
    AUTH_SKIP or AUTH_NO_CREDENTIALS), leaving the settings [st'], and the
    package initialises and the identity is read from [st'], the package is
    set up with a null identity when [st'] configures no gateway username,
    and with the identity read from [st'] when it does; init returns the
    result of that setup.  The settings consulted are those left by the
    gateway authentication, so a username entered at its prompt counts as
    configured. *)
Theorem auth_init_identity (c : rdpContext Instance) (ch : Channel) (t : Tls)
    (a : Auth) (inst : Instance) (st : rdpSettings) (d : auth_status) (st' : rdpSettings)
    (a1 : Auth) (ident : SEC_WINNT_AUTH_IDENTITY) :
  tls ch = Some t -> auth ch = Some a -> instance c = Some inst -> settings c = Some st ->
  utils_authenticate_gateway inst st = (d, st') ->
  d = AUTH_SUCCESS \/ d = AUTH_SKIP \/ d = AUTH_NO_CREDENTIALS ->
  credssp_auth_init a AUTH_PKG t = (true, a1) ->
  identity_set_from_settings st' = Some ident ->
  let out := rpc_ncacn_http_auth_init (Some c) (Some ch) in
  (GatewayUsername st' = None ->
   c_trace out = [EvAuthInit AUTH_PKG; EvSetupClient None; EvFreeIdentity;
                  EvSetFlags ISC_REQ_CONFIDENTIALITY] /\
   c_ret out =
     (if fst (credssp_auth_setup_client a1 "HTTP" (GatewayHostname st') None)
      then TRUE else FALSE)) /\
  (forall u, GatewayUsername st' = Some u ->
   c_trace out = [EvAuthInit AUTH_PKG; EvSetupClient (Some ident); EvFreeIdentity;
                  EvSetFlags ISC_REQ_CONFIDENTIALITY] /\
   c_ret out =
     (if fst (credssp_auth_setup_client a1 "HTTP" (GatewayHostname st') (Some ident))
      then TRUE else FALSE)).
Proof.
  intros Ht Ha Hi Hs Hg Hd Hinit Hid out. unfold out.
  rewrite (auth_init_unfold c ch t a inst st d st' Ht Ha Hi Hs Hg). cbv zeta.
  assert (Hcont : forall (X : CallOut Channel) (Y : CallOut Channel) (Z0 : CallOut Channel),
    (match d with
     | AUTH_SUCCESS | AUTH_SKIP => X | AUTH_CANCELLED => Y | AUTH_NO_CREDENTIALS => X
     | AUTH_FAILED => Z0 end) = X)
    by (intros; destruct Hd as [E|[E|E]]; rewrite E; reflexivity).
  rewrite Hcont. rewrite Hinit. simpl. rewrite Hid.
  split.
  - intros Hu. rewrite Hu.
    destruct (credssp_auth_setup_client a1 "HTTP" (GatewayHostname st') None) as [res a2].
    simpl. auto.
  - intros u Hu. rewrite Hu.
    destruct (credssp_auth_setup_client a1 "HTTP" (GatewayHostname st') (Some ident))
      as [res a2].
    simpl. auto.
Qed.

(** C9 (amended): the send, receive and init operations return FALSE when
    a required pointer is null (the channel, the response, the context, the
    channel's security package, for the sends its HTTP context, and for
    init its TLS layer and the context's instance and settings).  The
    completion check returns no failure result for a null channel: it fails
    its WINPR_ASSERT; for a channel without package it returns FALSE (not
    complete). *)
Theorem null_arguments_rejected :
  s_ret (rpc_ncacn_http_send_in_channel_request (@None Channel)) = FALSE /\
  (forall replacement,
     s_ret (rpc_ncacn_http_send_out_channel_request (@None Channel) replacement) = FALSE) /\
  (forall ch : Channel, auth ch = None \/ http ch = None ->
     s_ret (rpc_ncacn_http_send_in_channel_request (Some ch)) = FALSE /\
     forall replacement,
       s_ret (rpc_ncacn_http_send_out_channel_request (Some ch) replacement) = FALSE) /\
  (forall (ch : option Channel) (response : option HttpResponse),
     ch = None \/ response = None \/ (exists c, ch = Some c /\ auth c = None) ->
     c_ret (rpc_ncacn_http_recv_in_channel_response ch response) = FALSE /\
     c_ret (rpc_ncacn_http_recv_out_channel_response ch response) = FALSE) /\
  (forall (c : option (rdpContext Instance)) (ch : option Channel),
     c = None \/ ch = None -> c_ret (rpc_ncacn_http_auth_init c ch) = FALSE) /\
  (forall (c : rdpContext Instance) (ch : Channel),
     tls ch = None \/ auth ch = None \/ instance c = None \/ settings c = None ->
     c_ret (rpc_ncacn_http_auth_init (Some c) (Some ch)) = FALSE) /\
  rpc_ncacn_http_is_final_request (@None Channel) = None /\
  (forall ch : Channel, auth ch = None -> rpc_ncacn_http_is_final_request (Some ch) = Some false).
Proof.
  split; [reflexivity|]. split; [reflexivity|].
  split; [|split; [|split; [|split; [|split]]]].
  - intros ch Hn. unfold rpc_ncacn_http_send_in_channel_request,
      rpc_ncacn_http_send_out_channel_request.
    destruct Hn as [E|E]; rewrite E; [|destruct (auth ch)]; split; reflexivity.
  - intros ch response [E|[E|[c0 [E1 E2]]]]; subst;
      [|destruct ch|]; split; try reflexivity;
      unfold rpc_ncacn_http_recv_in_channel_response,
        rpc_ncacn_http_recv_out_channel_response; rewrite ?E2;
      destruct response; reflexivity.
  - intros c ch [E|E]; subst; [|destruct c]; reflexivity.
  - intros c ch Hn. unfold rpc_ncacn_http_auth_init.
    destruct Hn as [E|[E|[E|E]]]; rewrite E;
      destruct (tls ch), (auth ch), (instance c), (settings c); reflexivity.
  - reflexivity.
  - intros ch E. unfold rpc_ncacn_http_is_final_request. rewrite E. reflexivity.
Qed.

End Properties.

(** ** Further properties of the handshake operations *)

Section Extras.

Context {Auth Http Tls Instance HttpResponse : Type}.
Context `{CA : CredsspAuthOps Auth Tls}.
Context `{HO : HttpOps Http HttpResponse}.
Context `{B64 : Base64Ops}.
Context `{SO : SessionOps Auth Http Tls Instance}.

Local Abbreviation Channel := (RpcChannel Auth Http Tls).

(** [rpc_auth_http_request] fails only on a null URI; otherwise the request
    is built with the given method, URI and content length, and the stream
    returned is the serialisation of that request. *)
Theorem rpc_auth_http_request_result (h : Http) (m : string) (cl : Z)
    (tok : option SecBuffer) (scheme : string) :
  (http_context_get_uri h = None ->
   rpc_auth_http_request (Some h) (Some m) cl tok scheme = (None, None)) /\
  (forall u, http_context_get_uri h = Some u ->
   exists req,
     rpc_auth_http_request (Some h) (Some m) cl tok scheme =
       (Some req, http_request_write h req) /\
     Method req = Some m /\ URI req = Some u /\ ContentLength req = cl).
Proof.
  unfold rpc_auth_http_request; simpl. split.
  - intros E. rewrite E. reflexivity.
  - intros u E. rewrite E. simpl.
    destruct tok; simpl; eexists; repeat split.
Qed.

Lemma send_in_unfold (ch : Channel) (a : Auth) (h : Http) (rc : Z) (a' : Auth) :
  auth ch = Some a -> http ch = Some h ->
  credssp_auth_authenticate a = (rc, a') ->
  rpc_ncacn_http_send_in_channel_request (Some ch) =
  if rc <? 0 then Build_SendOut FALSE (Some (set_auth ch a')) None None
  else
    let '(req, s) :=
      rpc_auth_http_request (Some h) (Some "RPC_IN_DATA"%string)
        (if rc =? 0 then 0 else 1073741824)
        (if credssp_auth_have_output_token a'
         then Some (credssp_auth_get_output_buffer a') else None)
        (credssp_auth_pkg_name a') in
    match s with
    | None => Build_SendOut (-1) (Some (set_auth ch a')) req None
    | Some s =>
        let status := rpc_channel_write (set_auth ch a') s in
        Build_SendOut (if status >? 0 then 1 else -1) (Some (set_auth ch a')) req (Some s)
    end.
Proof.
  intros Ha Hh Hs. unfold rpc_ncacn_http_send_in_channel_request.
  rewrite Ha, Hh, Hs. reflexivity.
Qed.

Lemma send_out_unfold (ch : Channel) (replacement : bool) (a : Auth) (h : Http)
    (rc : Z) (a' : Auth) :
  auth ch = Some a -> http ch = Some h ->
  credssp_auth_authenticate a = (rc, a') ->
  rpc_ncacn_http_send_out_channel_request (Some ch) replacement =
  if rc <? 0 then Build_SendOut FALSE (Some (set_auth ch a')) None None
  else
    let '(req, s) :=
      rpc_auth_http_request (Some h) (Some "RPC_OUT_DATA"%string)
        (if negb replacement then (if rc =? 0 then 0 else 76)
         else (if rc =? 0 then 0 else 120))
        (if credssp_auth_have_output_token a'
         then Some (credssp_auth_get_output_buffer a') else None)
        (credssp_auth_pkg_name a') in
    match s with
    | None => Build_SendOut (-1) (Some (set_auth ch a')) req None
    | Some s =>
        let status := if rpc_channel_write (set_auth ch a') s <? 0 then FALSE else TRUE in
        Build_SendOut status (Some (set_auth ch a')) req (Some s)
    end.
Proof.
  intros Ha Hh Hs. unfold rpc_ncacn_http_send_out_channel_request.
  rewrite Ha, Hh, Hs. reflexivity.
Qed.

(** A failed security step ends either send with FALSE before any request
    is built or anything is written; the package keeps the state the step
    left it in. *)
Theorem send_step_failure (ch : Channel) (replacement : bool) (a : Auth) (h : Http)
    (rc : Z) (a' : Auth) :
  auth ch = Some a -> http ch = Some h ->
  credssp_auth_authenticate a = (rc, a') -> rc < 0 ->
  rpc_ncacn_http_send_in_channel_request (Some ch) =
    Build_SendOut FALSE (Some (set_auth ch a')) None None /\
  rpc_ncacn_http_send_out_channel_request (Some ch) replacement =
    Build_SendOut FALSE (Some (set_auth ch a')) None None.
Proof.
  intros Ha Hh Hs Hrc.
  rewrite (send_in_unfold ch a h rc a' Ha Hh Hs),
          (send_out_unfold ch replacement a h rc a' Ha Hh Hs).
  destruct (Z.ltb_spec rc 0); [auto|lia].
Qed.

(** Once the security step succeeds and the HTTP context has a URI, each
    send builds a request, hands exactly its serialisation to the transport
    and returns: -1 when serialisation fails; otherwise for the inbound
    send 1 if the write reports a positive count and -1 if not, and for the
    outbound send FALSE if the write reports a negative count and TRUE if
    not. *)
Theorem send_result (ch : Channel) (replacement : bool) (a : Auth) (h : Http)
    (rc : Z) (a' : Auth) (u : string) :
  auth ch = Some a -> http ch = Some h ->
  credssp_auth_authenticate a = (rc, a') -> 0 <= rc ->
  http_context_get_uri h = Some u ->
  (exists req,
     let out := rpc_ncacn_http_send_in_channel_request (Some ch) in
     s_req out = Some req /\ s_written out = http_request_write h req /\
     s_ret out =
       match http_request_write h req with
       | None => -1
       | Some s => if rpc_channel_write (set_auth ch a') s >? 0 then 1 else -1
       end) /\
  (exists req,
     let out := rpc_ncacn_http_send_out_channel_request (Some ch) replacement in
     s_req out = Some req /\ s_written out = http_request_write h req /\
     s_ret out =
       match http_request_write h req with
       | None => -1
       | Some s => if rpc_channel_write (set_auth ch a') s <? 0 then FALSE else TRUE
       end).
Proof.
  intros Ha Hh Hs Hrc Hu.
  rewrite (send_in_unfold ch a h rc a' Ha Hh Hs),
          (send_out_unfold ch replacement a h rc a' Ha Hh Hs).
  destruct (Z.ltb_spec rc 0) as [Hlt|_]; [lia|].
  split.
  - destruct (proj2 (rpc_auth_http_request_result h "RPC_IN_DATA" (if rc =? 0 then 0 else 1073741824)
      (if credssp_auth_have_output_token a'
       then Some (credssp_auth_get_output_buffer a') else None)
      (credssp_auth_pkg_name a')) u Hu) as [req [E _]].
    rewrite E. exists req. destruct (http_request_write h req); simpl; auto.
  - destruct (proj2 (rpc_auth_http_request_result h "RPC_OUT_DATA"
      (if negb replacement then (if rc =? 0 then 0 else 76)
       else (if rc =? 0 then 0 else 120))
      (if credssp_auth_have_output_token a'
       then Some (credssp_auth_get_output_buffer a') else None)
      (credssp_auth_pkg_name a')) u Hu) as [req [E _]].
    rewrite E. exists req. destruct (http_request_write h req); simpl; auto.
Qed.

(** The inbound send returns FALSE (0) only on a null package or HTTP
    context or a failed security step: every later failure is reported as
    -1. *)
Theorem send_in_false_iff (ch : Channel) :
  s_ret (rpc_ncacn_http_send_in_channel_request (Some ch)) = FALSE <->
  auth ch = None \/ http ch = None \/
  exists a rc a', auth ch = Some a /\ credssp_auth_authenticate a = (rc, a') /\ rc < 0.
Proof.
  destruct (auth ch) as [a|] eqn:Ha; [|unfold rpc_ncacn_http_send_in_channel_request;
    rewrite Ha; simpl; tauto].
  destruct (http ch) as [h|] eqn:Hh; [|unfold rpc_ncacn_http_send_in_channel_request;
    rewrite Ha, Hh; simpl; tauto].
  destruct (credssp_auth_authenticate a) as [rc a'] eqn:Hs.
  rewrite (send_in_unfold ch a h rc a' Ha Hh Hs).
  split.
  - destruct (Z.ltb_spec rc 0) as [Hlt|Hge].
    + intros _. right; right. exists a, rc, a'. auto.
    + destruct (rpc_auth_http_request _ _ _ _ _) as [req [s|]]; simpl;
        [destruct (rpc_channel_write _ s >? 0)|]; unfold FALSE; discriminate.
  - intros [E|[E|[a0 [rc0 [a0' [E1 [E2 E3]]]]]]]; try discriminate.
    injection E1 as <-. rewrite Hs in E2. injection E2 as <- <-.
    destruct (Z.ltb_spec rc 0); [reflexivity|lia].
Qed.

(** After [rpc_ncacn_http_auth_uninit] the channel keeps its HTTP context
    and TLS layer but has no package: a second uninit changes nothing, both
    sends, both receives and init return FALSE, and the completion check
    reports the handshake as not complete. *)
Theorem uninit_disables (ch : Channel) (replacement : bool)
    (response : option HttpResponse) (c : option (rdpContext Instance)) :
  let ch' := rpc_ncacn_http_auth_uninit (Some ch) in
  ch' = Some {| auth := None; http := http ch; tls := tls ch |} /\
  rpc_ncacn_http_auth_uninit ch' = ch' /\
  s_ret (rpc_ncacn_http_send_in_channel_request ch') = FALSE /\
  s_ret (rpc_ncacn_http_send_out_channel_request ch' replacement) = FALSE /\
  c_ret (rpc_ncacn_http_recv_in_channel_response ch' response) = FALSE /\
  c_ret (rpc_ncacn_http_recv_out_channel_response ch' response) = FALSE /\
  c_ret (rpc_ncacn_http_auth_init c ch') = FALSE /\
  rpc_ncacn_http_is_final_request ch' = Some false.
Proof.
  intros ch'. unfold ch'. simpl.
  repeat split; try reflexivity.
  - destruct response; reflexivity.
  - destruct response; reflexivity.
  - destruct c as [c|]; [|reflexivity]. simpl.
    destruct (tls ch); reflexivity.
Qed.

(** Buffer discipline of the receive on a valid channel and response: the
    decoded buffer (null when there is no header) is either released once
    with the channel unchanged, or handed to the package once, non-null,
    with its length cast to 32 bits, the length being non-zero and at most
    UINT32_MAX. *)
Theorem recv_buffer_released_or_taken (ch : Channel) (a : Auth) (resp : HttpResponse)
    (d : option (list Byte.byte)) (n : Z) :
  auth ch = Some a ->
  match http_response_get_auth_token resp (credssp_auth_pkg_name a) with
  | Some t => crypto_base64_decode t
  | None => (None, 0)
  end = (d, n) ->
  let out := rpc_ncacn_http_recv_in_channel_response (Some ch) (Some resp) in
  (c_trace out = [EvFree d] /\ c_chan out = Some ch) \/
  (d <> None /\ n <> 0 /\ n <= UINT32_MAX /\
     let buffer := {| pvBuffer := d; cbBuffer := n mod 2 ^ 32 |} in
     c_trace out = [EvTakeInput buffer] /\
     c_chan out = Some (set_auth ch (credssp_auth_take_input_buffer a buffer))).
Proof.
  intros Ha Hd out. unfold out. rewrite (recv_in_unfold ch a resp Ha), Hd.
  destruct (Z.gtb_spec n UINT32_MAX) as [Hgt|Hle]; [left; auto|].
  destruct d as [dd|]; [|left; auto].
  destruct (Z.eqb_spec n 0) as [E|Ne]; [left; auto|].
  right. simpl. repeat split; auto; discriminate.
Qed.

(** On a valid channel and response the receive fails only on an
    oversized token: any other outcome of decoding, including a token the
    decoder rejects (null data), returns TRUE. *)
Theorem recv_result (ch : Channel) (a : Auth) (resp : HttpResponse)
    (d : option (list Byte.byte)) (n : Z) :
  auth ch = Some a ->
  match http_response_get_auth_token resp (credssp_auth_pkg_name a) with
  | Some t => crypto_base64_decode t
  | None => (None, 0)
  end = (d, n) ->
  c_ret (rpc_ncacn_http_recv_in_channel_response (Some ch) (Some resp)) =
    (if n >? UINT32_MAX then FALSE else TRUE) /\
  c_ret (rpc_ncacn_http_recv_out_channel_response (Some ch) (Some resp)) =
    (if n >? UINT32_MAX then FALSE else TRUE).
Proof.
  intros Ha Hd. change (rpc_ncacn_http_recv_out_channel_response (Some ch) (Some resp)) with (rpc_ncacn_http_recv_in_channel_response (Some ch) (Some resp)).
  rewrite (recv_in_unfold ch a resp Ha), Hd.
  destruct (n >? UINT32_MAX); [auto|].
  destruct (match d with Some _ => negb (n =? 0) | None => false end); auto.
Qed.

(** The gateway decision in init: AUTH_FAILED fails with no error recorded
    and no call into the package; the cancellation error is recorded
    exactly when the decision is AUTH_CANCELLED. *)
Theorem auth_init_decision (c : rdpContext Instance) (ch : Channel) (t : Tls)
    (a : Auth) (inst : Instance) (st : rdpSettings) :
  tls ch = Some t -> auth ch = Some a -> instance c = Some inst -> settings c = Some st ->
  (fst (utils_authenticate_gateway inst st) = AUTH_FAILED ->
   rpc_ncacn_http_auth_init (Some c) (Some ch) = Build_CallOut FALSE (Some ch) []) /\
  (In (EvSetLastError FREERDP_ERROR_CONNECT_CANCELLED)
      (c_trace (rpc_ncacn_http_auth_init (Some c) (Some ch))) <->
   fst (utils_authenticate_gateway inst st) = AUTH_CANCELLED).
Proof.
  intros Ht Ha Hi Hs.
  destruct (utils_authenticate_gateway inst st) as [d st'] eqn:Hg. simpl fst.
  rewrite (auth_init_unfold c ch t a inst st d st' Ht Ha Hi Hs Hg). cbv zeta.
  split; [intros E; rewrite E; reflexivity|].
  destruct d; simpl;
    try (split; [|discriminate]);
    try (destruct (credssp_auth_init a AUTH_PKG t) as [[|] a1]; simpl;
         [destruct (identity_set_from_settings st') as [ident|]; simpl;
          [destruct (credssp_auth_setup_client _ _ _ _) as [res a2]; simpl|]|]);
    intuition discriminate.
Qed.

(** Init stops right after a failed credssp_auth_init, or after a failed
    read of the identity from the settings left by the gateway
    authentication: it returns FALSE, and the package is never set up nor
    given its flags. *)
Theorem auth_init_early_failure (c : rdpContext Instance) (ch : Channel) (t : Tls)
    (a : Auth) (inst : Instance) (st : rdpSettings) (d : auth_status) (st' : rdpSettings)
    (ok : bool) (a1 : Auth) :
  tls ch = Some t -> auth ch = Some a -> instance c = Some inst -> settings c = Some st ->
  utils_authenticate_gateway inst st = (d, st') ->
  d = AUTH_SUCCESS \/ d = AUTH_SKIP \/ d = AUTH_NO_CREDENTIALS ->
  credssp_auth_init a AUTH_PKG t = (ok, a1) ->
  ok = false \/ identity_set_from_settings st' = None ->
  rpc_ncacn_http_auth_init (Some c) (Some ch) =
  Build_CallOut FALSE (Some (set_auth ch a1)) [EvAuthInit AUTH_PKG].
Proof.
  intros Ht Ha Hi Hs Hg Hd Hinit Hf.
  rewrite (auth_init_unfold c ch t a inst st d st' Ht Ha Hi Hs Hg). cbv zeta.
  destruct Hd as [E|[E|E]]; rewrite E; rewrite Hinit; simpl;
    destruct Hf as [Hok|Hid]; subst; simpl; try reflexivity;
    destruct ok; simpl; try reflexivity; rewrite Hid; reflexivity.
Qed.

(** Once the package is set up, init sets the confidentiality flag on it
    whatever the result of the setup, and returns that result; the setup
    reads the settings left by the gateway authentication. *)
Theorem auth_init_sets_flags (c : rdpContext Instance) (ch : Channel) (t : Tls)
    (a : Auth) (inst : Instance) (st : rdpSettings) (d : auth_status) (st' : rdpSettings)
    (a1 : Auth) (ident : SEC_WINNT_AUTH_IDENTITY) :
  tls ch = Some t -> auth ch = Some a -> instance c = Some inst -> settings c = Some st ->
  utils_authenticate_gateway inst st = (d, st') ->
  d = AUTH_SUCCESS \/ d = AUTH_SKIP \/ d = AUTH_NO_CREDENTIALS ->
  credssp_auth_init a AUTH_PKG t = (true, a1) ->
  identity_set_from_settings st' = Some ident ->
  let setup := credssp_auth_setup_client a1 "HTTP" (GatewayHostname st')
                 (match GatewayUsername st' with Some _ => Some ident | None => None end) in
  let out := rpc_ncacn_http_auth_init (Some c) (Some ch) in
  c_chan out = Some (set_auth ch (credssp_auth_set_flags (snd setup) ISC_REQ_CONFIDENTIALITY)) /\
  c_ret out = (if fst setup then TRUE else FALSE).
Proof.
  intros Ht Ha Hi Hs Hg Hd Hinit Hid setup out. unfold out, setup.
  rewrite (auth_init_unfold c ch t a inst st d st' Ht Ha Hi Hs Hg). cbv zeta.
  destruct Hd as [E|[E|E]]; rewrite E; rewrite Hinit; simpl; rewrite Hid;
    destruct (credssp_auth_setup_client _ _ _ _) as [res a2]; simpl; auto.
Qed.

(** Init returns TRUE exactly when every pointer it needs is present, the
    gateway decision lets it proceed, the package initialises, the
    identity is read from the settings left by the gateway authentication
    and the client setup succeeds. *)
Theorem auth_init_true_iff (c : rdpContext Instance) (ch : Channel) :
  c_ret (rpc_ncacn_http_auth_init (Some c) (Some ch)) = TRUE <->
  exists t a inst st d st' a1 ident,
    tls ch = Some t /\ auth ch = Some a /\ instance c = Some inst /\ settings c = Some st /\
    utils_authenticate_gateway inst st = (d, st') /\
    (d = AUTH_SUCCESS \/ d = AUTH_SKIP \/ d = AUTH_NO_CREDENTIALS) /\
    credssp_auth_init a AUTH_PKG t = (true, a1) /\
    identity_set_from_settings st' = Some ident /\
    fst (credssp_auth_setup_client a1 "HTTP" (GatewayHostname st')
           (match GatewayUsername st' with Some _ => Some ident | None => None end)) = true.
Proof.
  split.
  - destruct (tls ch) as [t|] eqn:Ht;
      [|unfold rpc_ncacn_http_auth_init; rewrite Ht; discriminate].
    destruct (auth ch) as [a|] eqn:Ha;
      [|unfold rpc_ncacn_http_auth_init; rewrite Ht, Ha; discriminate].
    destruct (instance c) as [inst|] eqn:Hi;
      [|unfold rpc_ncacn_http_auth_init; rewrite Ht, Ha, Hi; discriminate].
    destruct (settings c) as [st|] eqn:Hs;
      [|unfold rpc_ncacn_http_auth_init; rewrite Ht, Ha, Hi, Hs; discriminate].
    destruct (utils_authenticate_gateway inst st) as [d st'] eqn:Hg.
    rewrite (auth_init_unfold c ch t a inst st d st' Ht Ha Hi Hs Hg). cbv zeta.
    intros Hret. exists t, a, inst, st, d, st'.
    destruct d; try discriminate;
    destruct (credssp_auth_init a AUTH_PKG t) as [[|] a1]; try discriminate;
    destruct (identity_set_from_settings st') as [ident|]; try discriminate;
    exists a1, ident;
    destruct (credssp_auth_setup_client _ _ _ _) as [[|] a2] eqn:Hsetup; try discriminate;
    repeat split; auto; rewrite Hsetup; reflexivity.
  - intros [t [a [inst [st [d [st' [a1 [ident
             [Ht [Ha [Hi [Hs [Hg [Hd [Hinit [Hid Hsetup]]]]]]]]]]]]]]]].
    rewrite (proj2 (auth_init_sets_flags c ch t a inst st d st' a1 ident
                      Ht Ha Hi Hs Hg Hd Hinit Hid)).
    rewrite Hsetup. reflexivity.
Qed.

End Extras.

(** ** A concrete session

    A two-round package: from state 0 the step needs more input and leaves
    an output token; from any other state it completes with no token.  The
    TLS layer of a channel is the byte count its transport write reports.
    A response is the value of its authentication header, if any. *)
Module Demo.

#[export] Instance demo_credssp : CredsspAuthOps Z Z := {|
  credssp_auth_authenticate a := if a =? 0 then (0, 1) else (1, 2);
  credssp_auth_have_output_token a := a =? 1;
  credssp_auth_get_output_buffer _ := {| pvBuffer := Some [Byte.x4e]; cbBuffer := 1 |};
  credssp_auth_pkg_name _ := AUTH_PKG;
  credssp_auth_take_input_buffer a _ := a;
  credssp_auth_is_complete a := 2 <=? a;
  credssp_auth_init a _ _ := (true, a);
  credssp_auth_setup_client a _ _ _ := (true, a);
  credssp_auth_set_flags a _ := a
|}.

#[export] Instance demo_http : HttpOps unit (option string) := {|
  http_context_get_uri _ := Some "/rpc/rpcproxy.dll"%string;
  http_request_write _ _ := Some [Byte.x52; Byte.x50; Byte.x43];
  http_response_get_auth_token resp _ := resp
|}.

#[export] Instance demo_base64 : Base64Ops := {|
  crypto_base64_encode _ _ := "Tg=="%string;
  crypto_base64_decode t :=
    if String.eqb t "" then (None, 0)
    else if String.eqb t "huge" then (Some [], 4294967296)
    else (Some [Byte.x4e], 1)
|}.

#[export] Instance demo_session : SessionOps Z unit Z auth_status := {|
  rpc_channel_write ch _ := match tls ch with Some n => n | None => -1 end;
  utils_authenticate_gateway d st :=
    (d, match d, GatewayUsername st with
        | AUTH_SUCCESS, None =>
            {| GatewayUsername := Some "gwuser"%string; GatewayDomain := GatewayDomain st;
               GatewayPassword := Some "secret"%string; GatewayHostname := GatewayHostname st |}
        | _, _ => st
        end);
  identity_set_from_settings st :=
    Some {| User := GatewayUsername st; Domain := GatewayDomain st;
            Password := GatewayPassword st |}
|}.

(** The settings of [settings_anon] once a username and password were
    entered at the gateway prompt. *)
Definition settings_prompted : rdpSettings :=
  {| GatewayUsername := Some "gwuser"%string; GatewayDomain := None;
     GatewayPassword := Some "secret"%string;
     GatewayHostname := Some "gw.example.com"%string |}.

(** A fresh channel whose transport writes 10 bytes. *)
Definition chan0 : RpcChannel Z unit Z := {| auth := Some 0; http := Some tt; tls := Some 10 |}.

(** A completing channel whose transport write reports 0 bytes. *)
Definition chan_zero : RpcChannel Z unit Z := {| auth := Some 1; http := Some tt; tls := Some 0 |}.

Definition settings_anon : rdpSettings :=
  {| GatewayUsername := None; GatewayDomain := None; GatewayPassword := None;
     GatewayHostname := Some "gw.example.com"%string |}.

Definition ctx (d : auth_status) : rdpContext auth_status :=
  {| settings := Some settings_anon; instance := Some d |}.

(** The request of the first inbound round from [chan0]. *)
Definition req_in0 : HttpRequest :=
  {| Method := Some "RPC_IN_DATA"%string; ContentLength := 0;
     URI := Some "/rpc/rpcproxy.dll"%string;
     AuthScheme := Some AUTH_PKG; AuthParam := Some "Tg=="%string |}.

Example demo_first_round :
  s_req (rpc_ncacn_http_send_in_channel_request (Some chan0)) = Some req_in0.
Proof. reflexivity. Qed.

(** The first inbound round needs more input and declares length 0. *)
Lemma send_in_content_length_witness : ContentLength req_in0 = 0.
Proof.
  apply (proj1 (send_in_content_length (CA:=demo_credssp) (HO:=demo_http) (B64:=demo_base64) (SO:=demo_session) chan0 0 tt 0 1 req_in0
                  eq_refl eq_refl eq_refl ltac:(reflexivity))).
  reflexivity.
Defined.

(** The completing outbound round on a replacement channel: no token, 120. *)
Definition req_out_repl : HttpRequest :=
  {| Method := Some "RPC_OUT_DATA"%string; ContentLength := 120;
     URI := Some "/rpc/rpcproxy.dll"%string; AuthScheme := None; AuthParam := None |}.

Lemma send_out_content_length_witness : ContentLength req_out_repl = 120.
Proof.
  apply (proj2 (send_out_content_length (CA:=demo_credssp) (HO:=demo_http)
                  (B64:=demo_base64) (SO:=demo_session) chan_zero true 1 tt 1 2 req_out_repl
                  eq_refl eq_refl eq_refl ltac:(reflexivity))).
  reflexivity.
Defined.

(** The first round carries the encoded token under the package's scheme. *)
Lemma send_auth_header_iff_token_witness :
  AuthScheme req_in0 = Some AUTH_PKG /\ AuthParam req_in0 = Some "Tg=="%string.
Proof.
  exact (proj1 (send_auth_header_iff_token (CA:=demo_credssp) (HO:=demo_http) (B64:=demo_base64) (SO:=demo_session) chan0 false 0 tt 0 1 eq_refl eq_refl eq_refl)
           req_in0 ltac:(reflexivity)).
Defined.

(** C4: a transport write reporting 0 bytes.  The outbound send returns
    TRUE, and the inbound send returns -1, which is non-zero, hence TRUE as
    a [BOOL]. *)
Lemma send_zero_write_not_failure :
  s_written (rpc_ncacn_http_send_out_channel_request (Some chan_zero) false) <> None /\
  s_ret (rpc_ncacn_http_send_out_channel_request (Some chan_zero) false) = TRUE /\
  s_written (rpc_ncacn_http_send_in_channel_request (Some chan_zero)) <> None /\
  s_ret (rpc_ncacn_http_send_in_channel_request (Some chan_zero)) = -1.
Proof. repeat split; cbv; discriminate || reflexivity. Qed.

(** A non-empty token is handed to the package once. *)
Lemma recv_in_token_handling_witness :
  c_trace (rpc_ncacn_http_recv_in_channel_response (Some chan0) (Some (Some "Tg=="%string)))
  = [EvTakeInput {| pvBuffer := Some [Byte.x4e]; cbBuffer := 1 |}].
Proof.
  refine (proj2 (proj2 (proj2 (proj2 (recv_in_token_handling (CA:=demo_credssp) (HO:=demo_http) (B64:=demo_base64) chan0 0 (Some "Tg=="%string)
             eq_refl)) "Tg=="%string [Byte.x4e] 1 eq_refl eq_refl _))).
  unfold UINT32_MAX; lia.
Defined.

(** A token of 2^32 bytes is refused and its buffer freed. *)
Lemma recv_token_too_large_witness :
  rpc_ncacn_http_recv_out_channel_response (Some chan0) (Some (Some "huge"%string)) =
  Build_CallOut FALSE (Some chan0) [EvFree (Some [])].
Proof.
  refine (proj2 (recv_token_too_large (CA:=demo_credssp) (HO:=demo_http) (B64:=demo_base64) chan0 0 (Some "huge"%string) "huge"%string
                   (Some []) 4294967296 eq_refl eq_refl eq_refl _)).
  unfold UINT32_MAX; lia.
Defined.

(** Cancelling the gateway authentication. *)
Lemma auth_init_cancelled_witness :
  rpc_ncacn_http_auth_init (Some (ctx AUTH_CANCELLED)) (Some chan0) =
  Build_CallOut FALSE (Some chan0) [EvSetLastError FREERDP_ERROR_CONNECT_CANCELLED].
Proof.
  exact (auth_init_cancelled (CA:=demo_credssp) (SO:=demo_session) (ctx AUTH_CANCELLED) chan0 10 0 AUTH_CANCELLED settings_anon
           eq_refl eq_refl eq_refl eq_refl eq_refl).
Defined.

(** No credentials and no username: the package is set up anonymously. *)
Lemma auth_init_identity_witness :
  c_trace (rpc_ncacn_http_auth_init (Some (ctx AUTH_SUCCESS)) (Some chan0)) =
  [EvAuthInit AUTH_PKG;
   EvSetupClient (Some {| User := Some "gwuser"%string; Domain := None;
                          Password := Some "secret"%string |});
   EvFreeIdentity; EvSetFlags ISC_REQ_CONFIDENTIALITY] /\
  c_ret (rpc_ncacn_http_auth_init (Some (ctx AUTH_SUCCESS)) (Some chan0)) = TRUE.
Proof.
  exact (proj2 (auth_init_identity (CA:=demo_credssp) (SO:=demo_session)
                  (ctx AUTH_SUCCESS) chan0 10 0 AUTH_SUCCESS settings_anon
                  AUTH_SUCCESS settings_prompted 0
                  {| User := Some "gwuser"%string; Domain := None;
                     Password := Some "secret"%string |}
                  eq_refl eq_refl eq_refl eq_refl eq_refl
                  (or_introl eq_refl) eq_refl eq_refl) "gwuser"%string eq_refl).
Defined.

(** C9: the completion check on a null channel does not return a result. *)
Lemma is_final_request_null_channel :
  rpc_ncacn_http_is_final_request (@None (RpcChannel Z unit Z)) = None /\
  rpc_ncacn_http_is_final_request (@None (RpcChannel Z unit Z)) <> Some false.
Proof. split; [reflexivity|discriminate]. Qed.

(** A channel without HTTP context is refused by the inbound send. *)
Lemma null_arguments_rejected_witness :
  s_ret (rpc_ncacn_http_send_in_channel_request
           (Some {| auth := Some 0; http := None; tls := Some 10 |} : option (RpcChannel Z unit Z)))
  = FALSE.
Proof.
  exact (proj1 (proj1 (proj2 (proj2 null_arguments_rejected))
           {| auth := Some 0; http := None; tls := Some 10 |} (or_intror eq_refl))).
Defined.

End Demo.

(** ** A concrete session with failures

    As in [Demo], except that a negative package state makes the security
    step fail, and state 7 makes credssp_auth_init fail. *)
Module DemoFail.

#[export] Instance fail_credssp : CredsspAuthOps Z Z := {|
  credssp_auth_authenticate a :=
    if a <? 0 then (-1, a) else if a =? 0 then (0, 1) else (1, 2);
  credssp_auth_have_output_token a := a =? 1;
  credssp_auth_get_output_buffer _ := {| pvBuffer := Some [Byte.x4e]; cbBuffer := 1 |};
  credssp_auth_pkg_name _ := AUTH_PKG;
  credssp_auth_take_input_buffer a _ := a;
  credssp_auth_is_complete a := 2 <=? a;
  credssp_auth_init a _ _ := (negb (a =? 7), a);
  credssp_auth_setup_client a _ _ _ := (true, a);
  credssp_auth_set_flags a _ := a
|}.

Definition chan_fail : RpcChannel Z unit Z :=
  {| auth := Some (-1); http := Some tt; tls := Some 10 |}.

Definition chan7 : RpcChannel Z unit Z :=
  {| auth := Some 7; http := Some tt; tls := Some 10 |}.

Lemma rpc_auth_http_request_result_witness :
  exists req,
    rpc_auth_http_request (HO:=Demo.demo_http) (B64:=Demo.demo_base64)
      (Some tt) (Some "RPC_IN_DATA"%string) 0 None AUTH_PKG =
      (Some req, @http_request_write _ _ Demo.demo_http tt req) /\
    Method req = Some "RPC_IN_DATA"%string /\
    URI req = Some "/rpc/rpcproxy.dll"%string /\ ContentLength req = 0.
Proof.
  exact (proj2 (rpc_auth_http_request_result (HO:=Demo.demo_http) (B64:=Demo.demo_base64)
                  tt "RPC_IN_DATA" 0 None AUTH_PKG) "/rpc/rpcproxy.dll"%string eq_refl).
Defined.

Lemma send_step_failure_witness :
  rpc_ncacn_http_send_in_channel_request (CA:=fail_credssp) (HO:=Demo.demo_http)
    (B64:=Demo.demo_base64) (SO:=Demo.demo_session) (Some chan_fail) =
  Build_SendOut FALSE (Some (set_auth chan_fail (-1))) None None.
Proof.
  exact (proj1 (send_step_failure (CA:=fail_credssp) (HO:=Demo.demo_http)
                  (B64:=Demo.demo_base64) (SO:=Demo.demo_session)
                  chan_fail false (-1) tt (-1) (-1) eq_refl eq_refl eq_refl
                  ltac:(lia))).
Defined.

Lemma send_result_witness :
  s_ret (rpc_ncacn_http_send_in_channel_request (CA:=fail_credssp) (HO:=Demo.demo_http)
           (B64:=Demo.demo_base64) (SO:=Demo.demo_session) (Some Demo.chan0)) = 1.
Proof.
  destruct (proj1 (send_result (CA:=fail_credssp) (HO:=Demo.demo_http)
                     (B64:=Demo.demo_base64) (SO:=Demo.demo_session)
                     Demo.chan0 false 0 tt 0 1 "/rpc/rpcproxy.dll"%string
                     eq_refl eq_refl eq_refl ltac:(lia) eq_refl)) as [req [_ [_ E]]].
  rewrite E. reflexivity.
Defined.

Lemma send_in_false_iff_witness :
  s_ret (rpc_ncacn_http_send_in_channel_request (CA:=fail_credssp) (HO:=Demo.demo_http)
           (B64:=Demo.demo_base64) (SO:=Demo.demo_session) (Some chan_fail)) = FALSE.
Proof.
  apply (proj2 (send_in_false_iff (CA:=fail_credssp) (HO:=Demo.demo_http)
                  (B64:=Demo.demo_base64) (SO:=Demo.demo_session) chan_fail)).
  right; right. exists (-1), (-1), (-1). repeat split; reflexivity.
Defined.

Lemma recv_buffer_released_or_taken_witness :
  c_trace (rpc_ncacn_http_recv_in_channel_response (CA:=fail_credssp) (HO:=Demo.demo_http)
             (B64:=Demo.demo_base64) (Some Demo.chan0) (Some None)) = [EvFree None].
Proof.
  destruct (recv_buffer_released_or_taken (CA:=fail_credssp) (HO:=Demo.demo_http)
              (B64:=Demo.demo_base64) Demo.chan0 0 None None 0 eq_refl eq_refl)
    as [[E _]|[Hd _]].
  - exact E.
  - exfalso; apply Hd; reflexivity.
Defined.

Lemma recv_result_witness :
  c_ret (rpc_ncacn_http_recv_out_channel_response (CA:=fail_credssp) (HO:=Demo.demo_http)
           (B64:=Demo.demo_base64) (Some Demo.chan0) (Some (Some ""%string))) = TRUE.
Proof.
  exact (proj2 (recv_result (CA:=fail_credssp) (HO:=Demo.demo_http) (B64:=Demo.demo_base64)
                  Demo.chan0 0 (Some ""%string) None 0 eq_refl eq_refl)).
Defined.

Lemma auth_init_decision_witness :
  rpc_ncacn_http_auth_init (CA:=fail_credssp) (SO:=Demo.demo_session)
    (Some (Demo.ctx AUTH_FAILED)) (Some Demo.chan0) =
  Build_CallOut FALSE (Some Demo.chan0) [].
Proof.
  exact (proj1 (auth_init_decision (CA:=fail_credssp) (SO:=Demo.demo_session)
                  (Demo.ctx AUTH_FAILED) Demo.chan0 10 0 AUTH_FAILED Demo.settings_anon
                  eq_refl eq_refl eq_refl eq_refl) eq_refl).
Defined.

Lemma auth_init_early_failure_witness :
  rpc_ncacn_http_auth_init (CA:=fail_credssp) (SO:=Demo.demo_session)
    (Some (Demo.ctx AUTH_SUCCESS)) (Some chan7) =
  Build_CallOut FALSE (Some (set_auth chan7 7)) [EvAuthInit AUTH_PKG].
Proof.
  exact (auth_init_early_failure (CA:=fail_credssp) (SO:=Demo.demo_session)
           (Demo.ctx AUTH_SUCCESS) chan7 10 7 AUTH_SUCCESS Demo.settings_anon
           AUTH_SUCCESS Demo.settings_prompted false 7
           eq_refl eq_refl eq_refl eq_refl eq_refl (or_introl eq_refl) eq_refl
           (or_introl eq_refl)).
Defined.

Lemma auth_init_sets_flags_witness :
  c_ret (rpc_ncacn_http_auth_init (CA:=fail_credssp) (SO:=Demo.demo_session)
           (Some (Demo.ctx AUTH_SKIP)) (Some Demo.chan0)) = TRUE.
Proof.
  exact (proj2 (auth_init_sets_flags (CA:=fail_credssp) (SO:=Demo.demo_session)
                  (Demo.ctx AUTH_SKIP) Demo.chan0 10 0 AUTH_SKIP Demo.settings_anon
                  AUTH_SKIP Demo.settings_anon 0
                  {| User := None; Domain := None; Password := None |}
                  eq_refl eq_refl eq_refl eq_refl eq_refl (or_intror (or_introl eq_refl))
                  eq_refl eq_refl)).
Defined.

Lemma auth_init_true_iff_witness :
  c_ret (rpc_ncacn_http_auth_init (CA:=fail_credssp) (SO:=Demo.demo_session)
           (Some (Demo.ctx AUTH_NO_CREDENTIALS)) (Some chan7)) <> TRUE.
Proof.
  intros H.
  destruct (proj1 (auth_init_true_iff (CA:=fail_credssp) (SO:=Demo.demo_session)
                     (Demo.ctx AUTH_NO_CREDENTIALS) chan7) H)
    as [t [a [inst [st [d [st' [a1 [ident [_ [Ha [_ [_ [_ [_ [Hinit _]]]]]]]]]]]]]]].
  injection Ha as <-. discriminate Hinit.
Defined.

End DemoFail.
